(** * ephemeris_lite: angular differences and event search

    A shallow embedding of [ephemeris_lite.py].  Python floats are
    modelled by exact rationals ([Q], compared with [==]), so rounding is
    left out.  Skyfield (the ephemeris oracle, the time scale and
    [almanac.find_discrete]) and pandas are external to the program and
    enter as section variables. *)

From Stdlib Require Import ZArith QArith Qround Qabs List Bool String Lia Lqa Sorted.
From Stdlib Require Import Ascii.
From Stdlib Require DecimalString.
Import ListNotations.

Open Scope Q_scope.

(** ** Python's operators on numbers *)

(** [x % m]: the remainder has the sign of the divisor; for [m > 0] it is
    [x - m * floor (x / m)].  The program only ever divides by the literal
    [360]. *)
Definition pymod (x m : Q) : Q := x - m * inject_Z (Qfloor (x / m)).

(** [x < y] as a test. *)
Definition Qltb (x y : Q) : bool :=
  match x ?= y with Lt => true | _ => false end.

(** ** Tools *)

(** [def ang_diff(a, b): return ((a - b + 180) % 360) - 180] *)
Definition ang_diff (a b : Q) : Q := pymod (a - b + 180) 360 - 180.

(** The reduction [x % 360] applied to every longitude ([ecl_lon], [Δ0],
    the composite value function). *)
Definition normalize (x : Q) : Q := pymod x 360.

(** [a] and [b] are diametrically opposite. *)
Definition opposite (a b : Q) : Prop :=
  exists k : Z, a - b == 180 + 360 * inject_Z k.

(** ** Data *)

(** A Skyfield [Time], as its Julian date in days. *)
Definition Instant : Type := Q.

Inductive Body : Type := sun | moon.

(** A Python function object used as a sign function: the callable and
    the [step_days] attribute that [find_events] sets on it. *)
Record SignFn : Type := mkSignFn {
  sign_at :> Instant -> bool;
  step_days : option Q
}.

(** [f.step_days = v] *)
Definition set_step_days (f : SignFn) (v : Q) : SignFn :=
  {| sign_at := sign_at f; step_days := Some v |}.

(** A sign function as [main] builds it: a bare lambda. *)
Definition lambda (f : Instant -> bool) : SignFn :=
  {| sign_at := f; step_days := None |}.

(** The outcome of a call that may raise. *)
Inductive result (E A : Type) : Type :=
| Ok (a : A)
| Raise (e : E).
Arguments Ok {E A} a.
Arguments Raise {E A} e.

(** A pandas [Timestamp]: the wall-clock reading in nanoseconds and, when
    it is time-zone aware, the offset of its zone from UTC. *)
Record Timestamp : Type := mkTimestamp {
  wall : Z;
  tzinfo : option Z
}.

(** [CST = timezone(timedelta(hours=8), name='CST')] *)
Definition CST : Z := (8 * 3600 * 1000000000)%Z.

Definition tz_localize (d : Timestamp) (tz : Z) : Timestamp :=
  {| wall := wall d; tzinfo := Some tz |}.

(** [if d.tzinfo is None: d = d.tz_localize(CST)] *)
Definition localize_if_naive (d : Timestamp) : Timestamp :=
  match tzinfo d with
  | None => tz_localize d CST
  | Some _ => d
  end.

Definition utc_value (d : Timestamp) : Z :=
  match tzinfo d with
  | Some off => (wall d - off)%Z
  | None => wall d
  end.

(** [a >= b] on time-zone aware timestamps. *)
Definition ts_ge (a b : Timestamp) : bool := (utc_value b <=? utc_value a)%Z.

(** A row handed to the spreadsheet: the title row of a block with the
    number of events, or one event with the three angles at it (the
    rendering by [strftime] and [dms] is left out). *)
Inductive row : Type :=
| TitleRow (title : string) (count : nat)
| EventRow (t : Instant) (lam_s lam_m delta : Q).

(** The newline character. *)
Definition nl : string := String (Ascii.ascii_of_nat 10) EmptyString.

(** What the program does to the outside, in order. *)
Inductive event : Type :=
| Input (prompt : string)
| Print (text : string)
| StdoutWrite (text : string)
| Search (target : Q) (t0 t1 : Instant)
| ToExcel (filename : string) (rows : list row).

(** How a run ends early: [sys.exit(msg)] or an uncaught exception. *)
Inductive abort (E : Type) : Type :=
| SysExit (msg : string)
| Uncaught (e : E).
Arguments SysExit {E} msg.
Arguments Uncaught {E} e.

(** A run: the trace of what was done, and a value or an early end. *)
Definition prog (E A : Type) : Type := (list event * (A + abort E))%type.

Definition ret {E A} (a : A) : prog E A := ([], inl a).

Definition bind {E A B} (m : prog E A) (k : A -> prog E B) : prog E B :=
  match m with
  | (tr, inl a) => let (tr', r) := k a in (tr ++ tr', r)
  | (tr, inr e) => (tr, inr e)
  end.

Definition tell {E} (ev : event) : prog E unit := ([ev], inl tt).

Definition sys_exit {E A} (msg : string) : prog E A := ([], inr (SysExit msg)).

Definition lift {E A} (r : result E A) : prog E A :=
  match r with
  | Ok a => ([], inl a)
  | Raise e => ([], inr (Uncaught e))
  end.

Notation "x <- m ;; k" := (bind m (fun x => k))
  (at level 61, m at next level, right associativity).
Notation "m ;; k" := (bind m (fun _ => k))
  (at level 61, right associativity).

(** The order-preserving subsequence of the elements of a list that
    satisfy a property, as a relation between the list and the
    subsequence. *)
Inductive selection {A : Type} (P : A -> Prop) : list A -> list A -> Prop :=
| sel_nil : selection P [] []
| sel_keep x l l' : P x -> selection P l l' -> selection P (x :: l) (x :: l')
| sel_drop x l l' : ~ P x -> selection P l l' -> selection P (x :: l) l'.

Section Program.

(** Exceptions of the external libraries. *)
Variable Exn : Type.

(** [(body - earth).at(t).ecliptic_latlon(epoch='date')], its longitude
    in degrees. *)
Variable raw_lon : Body -> Instant -> Q.

(** [almanac.find_discrete(t0, t1, f)]: the times at which [f] changes
    and the values it takes there. *)
Variable find_discrete :
  Instant -> Instant -> SignFn -> result Exn (list Instant * list Z).

(** [ts.from_datetime] *)
Variable from_datetime : Timestamp -> Instant.

(** [def ecl_lon(body, t)] *)
Definition ecl_lon (body : Body) (t : Instant) : Q :=
  pymod (raw_lon body t) 360.

(** The test of the list comprehension of [find_events]:
    [abs(ang_diff(fn_val(t), target)) < tol]. *)
Definition within_tol (fn_val : Instant -> Q) (target tol : Q) (t : Instant) : bool :=
  Qltb (Qabs (ang_diff (fn_val t) target)) tol.

(** [def find_events(fn_sign, fn_val, target, t0, t1, step_h=1, tol=0.01)] *)
Definition find_events (fn_sign : SignFn) (fn_val : Instant -> Q) (target : Q)
    (t0 t1 : Instant) (step_h tol : Q) : result Exn (list Instant) :=
  let fn_sign := set_step_days fn_sign (step_h / 24) in
  match find_discrete t0 t1 fn_sign with
  | Raise e => Raise e
  | Ok (times, _) => Ok (filter (within_tol fn_val target tol) times)
  end.

Definition default_step_h : Q := 1.
Definition default_tol : Q := 1 # 100.

(** The sign functions of [main]; [λs0], [λm0] and [Δ0] are the values
    the lambdas close over. *)
Definition f_s (λs0 : Q) : Instant -> bool :=
  fun t => Qltb 0 (ang_diff (ecl_lon sun t) λs0).

Definition f_m (λm0 : Q) : Instant -> bool :=
  fun t => Qltb 0 (ang_diff (ecl_lon moon t) λm0).

Definition f_dm (Δ0 : Q) : Instant -> bool :=
  fun t => Qltb 0 (ang_diff (pymod (ecl_lon moon t - ecl_lon sun t) 360) Δ0).

(** A call of [find_events] from [main], with the default step and
    tolerance; the search it starts is recorded in the trace. *)
Definition search (fn_sign : Instant -> bool) (fn_val : Instant -> Q)
    (target : Q) (t0 t1 : Instant) : prog Exn (list Instant) :=
  tell (Search target t0 t1) ;;
  lift (find_events (lambda fn_sign) fn_val target t0 t1 default_step_h default_tol).

(** [collect_data(title, arr)], as the rows it appends to [data]. *)
Definition collect_data (title : string) (arr : list Instant) : list row :=
  TitleRow title (List.length arr)
  :: map (fun t =>
            let λs := ecl_lon sun t in
            let λm := ecl_lon moon t in
            let Δ := pymod (λm - λs) 360 in
            EventRow t λs λm Δ) arr.

(** [def main()], given the two parsed answers and the file name typed
    in. *)
Definition main (start_in end_in : Timestamp) (name : string) : prog Exn unit :=
  tell (Input "开始时间（北京时间，如 2025-04-01 00:00:00）：") ;;
  tell (Input "结束时间（北京时间，如 2025-05-01 00:00:00）：") ;;
  let start_in := localize_if_naive start_in in
  let end_in := localize_if_naive end_in in
  if ts_ge start_in end_in then sys_exit "结束时间必须晚于开始时间！" else
  let t0 := from_datetime start_in in
  let t1 := from_datetime end_in in
  let λs0 := ecl_lon sun t0 in
  let λm0 := ecl_lon moon t0 in
  let Δ0 := pymod (λm0 - λs0) 360 in
  tell (Print (nl ++ "正在计算，请稍候…")) ;;
  ev_s <- search (f_s λs0) (fun t => ecl_lon sun t) λs0 t0 t1 ;;
  ev_m <- search (f_m λm0) (fun t => ecl_lon moon t) λm0 t0 t1 ;;
  ev_dm <- search (f_dm Δ0)
             (fun t => pymod (ecl_lon moon t - ecl_lon sun t) 360) Δ0 t0 t1 ;;
  let data :=
    collect_data "► 太阳黄经回到首日值的时刻" ev_s
    ++ collect_data "► 月亮黄经回到首日值的时刻" ev_m
    ++ collect_data "► 日月黄经差回到首日值的时刻" ev_dm in
  tell (Input "请输入导出的excel的名称：") ;;
  let filename := (name ++ ".xlsx")%string in
  tell (ToExcel filename data) ;;
  tell (Print (nl ++ "数据已保存到 " ++ filename)) ;;
  tell (StdoutWrite nl) ;;
  tell (Input "加载完毕，请按Enter键退出") ;;
  ret tt.

End Program.

Arguments ecl_lon raw_lon body t : assert.
Arguments find_events {Exn} find_discrete fn_sign fn_val target t0 t1 step_h tol.
Arguments f_s raw_lon λs0 t : assert.
Arguments f_m raw_lon λm0 t : assert.
Arguments f_dm raw_lon Δ0 t : assert.
Arguments search {Exn} find_discrete fn_sign fn_val target t0 t1.
Arguments collect_data raw_lon title arr : assert.
Arguments main {Exn} raw_lon find_discrete from_datetime start_in end_in name.

(** ** Rendering an angle *)

(** [int(x)] on a float: the integer part, rounding toward zero. *)
Definition py_int (x : Q) : Z := if Qltb x 0 then Qceiling x else Qfloor x.

(** Rounding to the nearest integer, ties to even: what the format
    [.1f] does to ten times its argument. *)
Definition round_half_even (x : Q) : Z :=
  let f := Qfloor x in
  match ((x - inject_Z f) ?= (1 # 2))%Q with
  | Lt => f
  | Gt => (f + 1)%Z
  | Eq => if Z.even f then f else (f + 1)%Z
  end.

(** The decimal digits of an integer that is not negative. *)
Definition decimal (n : Z) : string :=
  DecimalString.NilZero.string_of_uint (N.to_uint (Z.to_N n)).

Fixpoint fill_string (c : Ascii.ascii) (n : nat) : string :=
  match n with
  | O => EmptyString
  | S n' => String c (fill_string c n')
  end.

(** Padding on the left up to a width, as the formats [3d] (with spaces)
    and [02d], [04.1f] (with zeros) do for numbers that are not
    negative. *)
Definition rjust (width : nat) (c : Ascii.ascii) (s : string) : string :=
  (fill_string c (width - String.length s) ++ s)%string.

(** A number of tenths written with one decimal, at least four wide. *)
Definition show_tenths (tenths : Z) : string :=
  rjust 4 "0"%char (decimal (tenths / 10) ++ "." ++ decimal (tenths mod 10))%string.

(** [format(x, "04.1f")] for [x >= 0]. *)
Definition fixed1 (x : Q) : string := show_tenths (round_half_even (x * 10)).

(** The three numbers [dms] computes: [d = int(deg)],
    [m = int((deg - d) * 60)], [s = (deg - d - m / 60) * 3600]. *)
Definition dms_d (deg : Q) : Z := py_int deg.

Definition dms_m (deg : Q) : Z := py_int ((deg - inject_Z (dms_d deg)) * 60)%Q.

Definition dms_s (deg : Q) : Q :=
  (deg - inject_Z (dms_d deg) - inject_Z (dms_m deg) / 60) * 3600.

(** [def dms(deg)] *)
Definition dms (deg : Q) : string :=
  let d := dms_d deg in
  let m := dms_m deg in
  let s := dms_s deg in
  let sign := if Qltb deg 0 then "-"%string else ""%string in
  (sign ++ rjust 3 " "%char (decimal (Z.abs d)) ++ "°"
     ++ rjust 2 "0"%char (decimal (Z.abs m)) ++ "′"
     ++ fixed1 (Qabs s) ++ "″")%string.

(** ** Instances of the external parts

    Concrete stand-ins for Skyfield, on which the theorems below are
    run: a search by uniform sampling every [step_days] and bisection of
    each interval across which the sign function changes, a search that
    reports one instant twice, bodies in uniform motion, and a time scale
    counting days. *)

Inductive SearchError : Type := BadWindow | NoStep | BadStep.

Fixpoint bisect (f : Instant -> bool) (n : nat) (lo hi : Q) : Q :=
  match n with
  | O => hi
  | S n' =>
      let mid := Qred ((lo + hi) / 2) in
      if Bool.eqb (f mid) (f lo) then bisect f n' mid hi else bisect f n' lo mid
  end.

Fixpoint scan (f : Instant -> bool) (step : Q) (n : nat) (t : Q)
    : list Instant * list Z :=
  match n with
  | O => ([], [])
  | S n' =>
      let t' := Qred (t + step) in
      let (ts, vs) := scan f step n' t' in
      if Bool.eqb (f t) (f t') then (ts, vs)
      else (bisect f 12 t t' :: ts, (if f t' then 1%Z else 0%Z) :: vs)
  end.

Definition sample_search (t0 t1 : Instant) (f : SignFn)
    : result SearchError (list Instant * list Z) :=
  if Qle_bool t1 t0 then Raise BadWindow else
  match step_days f with
  | None => Raise NoStep
  | Some s =>
      if Qle_bool s 0 then Raise BadStep
      else Ok (scan f s (Z.to_nat (Qceiling ((t1 - t0) / s))) t0)
  end.


(** The sun advances one degree a day, the moon thirteen. *)
Definition uniform_lon (body : Body) (t : Instant) : Q :=
  match body with
  | sun => t
  | moon => 13 * t
  end.

Definition days_from_datetime (d : Timestamp) : Instant :=
  Qred (inject_Z (utc_value d) / inject_Z (86400 * 1000000000)).

(** Midnight of day [n], without a time zone. *)
Definition midnight (n : Z) : Timestamp :=
  {| wall := (n * 86400 * 1000000000)%Z; tzinfo := None |}.

(** ** Facts about [pymod] *)

(** Linear arithmetic over [Q] with integer turn counts pushed through
    [inject_Z]. *)
Ltac turns :=
  unfold Z.sub;
  rewrite ?inject_Z_plus, ?inject_Z_opp;
  change (inject_Z 1) with 1; change (inject_Z 0) with 0;
  lra.

Lemma Qfloor_unique (x : Q) (n : Z) :
  inject_Z n <= x -> x < inject_Z (n + 1) -> Qfloor x = n.
Proof.
  intros Hlo Hhi.
  pose proof (Qfloor_le x) as Fl.
  pose proof (Qlt_floor x) as Fh.
  assert (A : inject_Z (Qfloor x) < inject_Z (n + 1)) by (eapply Qle_lt_trans; eauto).
  assert (B : inject_Z n < inject_Z (Qfloor x + 1)) by (eapply Qle_lt_trans; eauto).
  rewrite <- Zlt_Qlt in A, B. lia.
Qed.

#[export] Instance pymod_comp : Proper (Qeq ==> Qeq ==> Qeq) pymod.
Proof.
  intros x x' Hx m m' Hm. unfold pymod.
  assert (E : Qfloor (x / m) = Qfloor (x' / m')) by (apply Qfloor_comp; rewrite Hx, Hm; reflexivity).
  rewrite E, Hx, Hm. reflexivity.
Qed.

#[export] Instance ang_diff_comp : Proper (Qeq ==> Qeq ==> Qeq) ang_diff.
Proof. intros a a' Ha b b' Hb. unfold ang_diff. rewrite Ha, Hb. reflexivity. Qed.

#[export] Instance normalize_comp : Proper (Qeq ==> Qeq) normalize.
Proof. intros a a' Ha. unfold normalize. rewrite Ha. reflexivity. Qed.

Lemma pymod_360_range (x : Q) : 0 <= pymod x 360 /\ pymod x 360 < 360.
Proof.
  unfold pymod.
  assert (E : x == 360 * (x / 360)) by field.
  pose proof (Qfloor_le (x / 360)) as Fl.
  pose proof (Qlt_floor (x / 360)) as Fh.
  rewrite inject_Z_plus in Fh. change (inject_Z 1) with 1 in Fh.
  generalize dependent (inject_Z (Qfloor (x / 360))). intros k Fl Fh.
  generalize dependent (x / 360). intros y E Fl Fh.
  split; lra.
Qed.

(** A value [r] in [[0, 360)] that differs from [x] by a whole number of
    turns is the remainder of [x]. *)
Lemma pymod_360_unique (x r : Q) (k : Z) :
  x == r + 360 * inject_Z k -> 0 <= r -> r < 360 -> pymod x 360 == r.
Proof.
  intros E Hlo Hhi. unfold pymod.
  assert (F : Qfloor (x / 360) = k).
  { apply Qfloor_unique.
    - apply Qle_shift_div_l; [reflexivity | lra].
    - apply Qlt_shift_div_r; [reflexivity | turns]. }
  rewrite F. lra.
Qed.

Lemma pymod_360_decomp (x : Q) :
  x == pymod x 360 + 360 * inject_Z (Qfloor (x / 360)).
Proof. unfold pymod. lra. Qed.

Lemma pymod_360_shift (x : Q) (k : Z) :
  pymod (x + 360 * inject_Z k) 360 == pymod x 360.
Proof.
  destruct (pymod_360_range x) as [Hlo Hhi].
  apply pymod_360_unique with (k := (Qfloor (x / 360) + k)%Z); trivial.
  pose proof (pymod_360_decomp x). turns.
Qed.


(** ** Facts about [ang_diff] *)

(** The interval the code really lands in is closed on the left. *)
Lemma ang_diff_range (a b : Q) : -180 <= ang_diff a b /\ ang_diff a b < 180.
Proof.
  unfold ang_diff. destruct (pymod_360_range (a - b + 180)). split; lra.
Qed.

(** The representative of [a - b] in [[-180, 180)] is the angular
    difference. *)
Lemma ang_diff_unique (a b d : Q) (k : Z) :
  a - b == d + 360 * inject_Z k -> -180 <= d -> d < 180 -> ang_diff a b == d.
Proof.
  intros E Hlo Hhi. unfold ang_diff.
  rewrite (pymod_360_unique (a - b + 180) (d + 180) k); lra.
Qed.


Lemma ang_diff_self (a : Q) : ang_diff a a == 0.
Proof.
  apply ang_diff_unique with (k := 0%Z); turns.
Qed.

Lemma ang_diff_opposite (a b : Q) : opposite a b -> ang_diff a b == -180.
Proof.
  intros [k E]. apply ang_diff_unique with (k := (k + 1)%Z); turns.
Qed.




(** ** Facts about the comparison and the list comprehension *)

Lemma Qltb_lt (x y : Q) : Qltb x y = true <-> x < y.
Proof.
  unfold Qltb. rewrite Qlt_alt.
  destruct (x ?= y); split; intro H; trivial; discriminate H.
Qed.

Lemma Qltb_ge (x y : Q) : Qltb x y = false <-> y <= x.
Proof.
  split; intro H.
  - apply Qnot_lt_le. intro L. apply Qltb_lt in L. congruence.
  - destruct (Qltb x y) eqn:E; trivial.
    apply Qltb_lt in E. exfalso. apply (Qlt_not_le _ _ E H).
Qed.

Lemma selection_filter {A : Type} (P : A -> Prop) (p : A -> bool) (l : list A) :
  (forall x, p x = true <-> P x) -> selection P l (filter p l).
Proof.
  intros Hp. induction l as [| x l IH]; simpl.
  - constructor.
  - destruct (p x) eqn:E.
    + apply sel_keep; [apply Hp; exact E | exact IH].
    + apply sel_drop; [rewrite <- Hp; congruence | exact IH].
Qed.

Lemma selection_functional {A : Type} (P : A -> Prop) (l l1 l2 : list A) :
  selection P l l1 -> selection P l l2 -> l1 = l2.
Proof.
  intros H1. revert l2.
  induction H1 as [| x l l' Px _ IH | x l l' Nx _ IH]; intros l2 H2;
    inversion H2; subst; try contradiction; auto.
  f_equal. auto.
Qed.



(** The normalization spelt [((x % 360) + 360) % 360] is the same
    reduction, and it lands in [[0, 360)]. *)
Lemma normalize_twice (x : Q) : pymod (pymod x 360 + 360) 360 == normalize x.
Proof.
  unfold normalize. destruct (pymod_360_range x).
  apply pymod_360_unique with (k := 1%Z); trivial. turns.
Qed.

Lemma normalize_range (x : Q) : 0 <= normalize x /\ normalize x < 360.
Proof. apply pymod_360_range. Qed.

(** ** The angular difference: claims *)

(** C2.  The interval [(-180, +180]] fails at diametrically opposite
    angles: [ang_diff 180 0] is [-180], not [+180], so it lies outside the
    documented half-open interval. *)
Theorem ang_diff_half_turn_is_minus_180 :
  ang_diff 180 0 == -180 /\
  ~ ang_diff 180 0 == 180 /\
  ~ (-180 < ang_diff 180 0 /\ ang_diff 180 0 <= 180).
Proof.
  assert (E : ang_diff 180 0 == -180) by reflexivity.
  split; [exact E | split].
  - rewrite E. intro H. discriminate H.
  - rewrite E. intros [H _]. discriminate H.
Qed.



(** C4.  At diametrically opposite angles both orders of the arguments
    give [-180]: the sign is not the [+180] of the convention, and the
    two differences are not opposite to each other. *)
Theorem ang_diff_half_turn_both_orders :
  ang_diff 180 0 == -180 /\
  ang_diff 0 180 == -180 /\
  ~ ang_diff 180 0 == - ang_diff 0 180.
Proof.
  assert (E1 : ang_diff 180 0 == -180) by reflexivity.
  assert (E2 : ang_diff 0 180 == -180) by reflexivity.
  split; [exact E1 | split; [exact E2 |]].
  rewrite E1, E2. intro H. discriminate H.
Qed.


(** ** The event search and the main program: claims *)

Section ProgramFacts.

Variable Exn : Type.
Variable raw_lon : Body -> Instant -> Q.
Variable find_discrete :
  Instant -> Instant -> SignFn -> result Exn (list Instant * list Z).
Variable from_datetime : Timestamp -> Instant.

Lemma within_tol_spec (fn_val : Instant -> Q) (target tol : Q) (t : Instant) :
  within_tol fn_val target tol t = true <-> Qabs (ang_diff (fn_val t) target) < tol.
Proof. unfold within_tol. apply Qltb_lt. Qed.

(** What [find_events] returns, by the outcome of the search it starts. *)
Lemma find_events_eq fn_sign fn_val target t0 t1 step_h tol :
  find_events find_discrete fn_sign fn_val target t0 t1 step_h tol =
  match find_discrete t0 t1 (set_step_days fn_sign (step_h / 24)) with
  | Raise e => Raise e
  | Ok (times, _) => Ok (filter (within_tol fn_val target tol) times)
  end.
Proof. reflexivity. Qed.

(** C1.  Every instant returned by [find_events] has its value, evaluated
    again by [fn_val], strictly closer to the target than [tol]. *)
Theorem find_events_within_tol fn_sign fn_val target t0 t1 step_h tol out t :
  find_events find_discrete fn_sign fn_val target t0 t1 step_h tol = Ok out ->
  In t out ->
  Qabs (ang_diff (fn_val t) target) < tol.
Proof.
  rewrite find_events_eq.
  destruct (find_discrete _ _ _) as [[times vals] | e]; [| discriminate].
  intros [= <-] Hin. apply filter_In in Hin.
  apply within_tol_spec. tauto.
Qed.

(** C5.  Each sign function is true exactly when its angular difference
    is strictly positive and false exactly when it is zero or negative;
    in particular it is false where the value equals the reference. *)
Theorem sign_functions_strict (ref : Q) (t : Instant) :
  let d_s := ang_diff (ecl_lon raw_lon sun t) ref in
  let d_m := ang_diff (ecl_lon raw_lon moon t) ref in
  let d_dm := ang_diff (pymod (ecl_lon raw_lon moon t - ecl_lon raw_lon sun t) 360) ref in
  (f_s raw_lon ref t = true <-> 0 < d_s) /\
  (f_s raw_lon ref t = false <-> d_s <= 0) /\
  (f_m raw_lon ref t = true <-> 0 < d_m) /\
  (f_m raw_lon ref t = false <-> d_m <= 0) /\
  (f_dm raw_lon ref t = true <-> 0 < d_dm) /\
  (f_dm raw_lon ref t = false <-> d_dm <= 0) /\
  f_s raw_lon (ecl_lon raw_lon sun t) t = false /\
  f_m raw_lon (ecl_lon raw_lon moon t) t = false /\
  f_dm raw_lon (pymod (ecl_lon raw_lon moon t - ecl_lon raw_lon sun t) 360) t = false.
Proof.
  cbv zeta. unfold f_s, f_m, f_dm.
  repeat match goal with
         | |- _ /\ _ => split
         | |- Qltb _ _ = true <-> _ => apply Qltb_lt
         | |- Qltb _ _ = false <-> _ => apply Qltb_ge
         | |- Qltb _ _ = false => apply Qltb_ge; rewrite ang_diff_self; apply Qle_refl
         end.
Qed.

(** C6.  When the search returns its candidates, [find_events] raises
    nothing and returns exactly the order-preserving subsequence of the
    candidates whose angular difference is within the tolerance. *)
Theorem find_events_selects fn_sign fn_val target t0 t1 step_h tol times vals :
  find_discrete t0 t1 (set_step_days fn_sign (step_h / 24)) = Ok (times, vals) ->
  exists out,
    find_events find_discrete fn_sign fn_val target t0 t1 step_h tol = Ok out /\
    selection (fun t => Qabs (ang_diff (fn_val t) target) < tol) times out /\
    forall l, selection (fun t => Qabs (ang_diff (fn_val t) target) < tol) times l ->
              l = out.
Proof.
  intros Hs. rewrite find_events_eq, Hs.
  exists (filter (within_tol fn_val target tol) times).
  assert (S : selection (fun t => Qabs (ang_diff (fn_val t) target) < tol) times
                (filter (within_tol fn_val target tol) times)).
  { apply selection_filter. intros x. apply within_tol_spec. }
  split; [reflexivity | split; [exact S |]].
  intros l Hl. exact (selection_functional _ _ _ _ Hl S).
Qed.

(** C7.  When the start is not before the end, [main] stops with the
    error message right after reading its two inputs: no search is
    started and nothing is written. *)
Theorem main_rejects_invalid_window (start_in end_in : Timestamp) (name : string) :
  (utc_value (localize_if_naive end_in) <= utc_value (localize_if_naive start_in))%Z ->
  main raw_lon find_discrete from_datetime start_in end_in name =
  ([Input "开始时间（北京时间，如 2025-04-01 00:00:00）：";
    Input "结束时间（北京时间，如 2025-05-01 00:00:00）："],
   inr (SysExit "结束时间必须晚于开始时间！")).
Proof.
  intros H. unfold main.
  assert (G : ts_ge (localize_if_naive start_in) (localize_if_naive end_in) = true)
    by (unfold ts_ge; apply Z.leb_le; exact H).
  rewrite G. reflexivity.
Qed.

(** C8.  [find_events] checks neither the step nor the tolerance: it
    raises exactly what the search raises, handing it [step_h / 24]
    as [step_days], and when the search succeeds with a tolerance that
    is not positive it returns the empty list. *)
Theorem find_events_no_validation fn_sign fn_val target t0 t1 step_h tol :
  (forall e,
      find_events find_discrete fn_sign fn_val target t0 t1 step_h tol = Raise e <->
      find_discrete t0 t1 (set_step_days fn_sign (step_h / 24)) = Raise e) /\
  (tol <= 0 ->
   forall times vals,
     find_discrete t0 t1 (set_step_days fn_sign (step_h / 24)) = Ok (times, vals) ->
     find_events find_discrete fn_sign fn_val target t0 t1 step_h tol = Ok []).
Proof.
  rewrite find_events_eq. split.
  - intros e. destruct (find_discrete _ _ _) as [[times vals] | e'].
    + split; discriminate.
    + split; intros [= ->]; reflexivity.
  - intros Htol times vals ->. f_equal.
    induction times as [| t times IH]; simpl; trivial.
    assert (N : within_tol fn_val target tol t = false).
    { apply Qltb_ge. apply Qle_trans with 0; trivial. apply Qabs_nonneg. }
    rewrite N. exact IH.
Qed.


End ProgramFacts.

(** ** The claims on a run

    The sun advancing one degree a day from longitude 0, searched over 400
    days by sampling every 24 hours.  The sampling search reports three sign
    changes: just after the start, at the branch cut on day 180, and just
    after day 360. *)

Lemma find_events_within_tol_witness :
  find_events sample_search (lambda (f_s uniform_lon 0)) (ecl_lon uniform_lon sun)
    0 0 400 24 (1 # 100) = Ok [1 # 4096; 1474561 # 4096] /\
  Qabs (ang_diff (ecl_lon uniform_lon sun (1474561 # 4096)) 0) < 1 # 100.
Proof.
  assert (E : find_events sample_search (lambda (f_s uniform_lon 0))
                (ecl_lon uniform_lon sun) 0 0 400 24 (1 # 100)
              = Ok [1 # 4096; 1474561 # 4096]) by (vm_compute; reflexivity).
  split; [exact E |].
  apply (find_events_within_tol SearchError sample_search
           (lambda (f_s uniform_lon 0)) (ecl_lon uniform_lon sun)
           0 0 400 24 (1 # 100) [1 # 4096; 1474561 # 4096] (1474561 # 4096) E).
  simpl. auto.
Defined.

Lemma find_events_selects_witness :
  exists out,
    find_events sample_search (lambda (f_s uniform_lon 0)) (ecl_lon uniform_lon sun)
      0 0 400 24 (1 # 100) = Ok out /\
    selection (fun t => Qabs (ang_diff (ecl_lon uniform_lon sun t) 0) < 1 # 100)
      [1 # 4096; 180; 1474561 # 4096] out /\
    forall l,
      selection (fun t => Qabs (ang_diff (ecl_lon uniform_lon sun t) 0) < 1 # 100)
        [1 # 4096; 180; 1474561 # 4096] l ->
      l = out.
Proof.
  apply (find_events_selects SearchError sample_search
           (lambda (f_s uniform_lon 0)) (ecl_lon uniform_lon sun)
           0 0 400 24 (1 # 100) [1 # 4096; 180; 1474561 # 4096] [1; 0; 1]%Z).
  vm_compute. reflexivity.
Defined.

Lemma main_rejects_invalid_window_witness :
  main uniform_lon sample_search days_from_datetime (midnight 3) (midnight 3) "out" =
  ([Input "开始时间（北京时间，如 2025-04-01 00:00:00）：";
    Input "结束时间（北京时间，如 2025-05-01 00:00:00）："],
   inr (SysExit "结束时间必须晚于开始时间！")).
Proof.
  apply (main_rejects_invalid_window SearchError uniform_lon sample_search
           days_from_datetime (midnight 3) (midnight 3) "out").
  vm_compute. discriminate.
Defined.

(** C8, as stated, fails: with a tolerance of zero the search goes ahead
    and [find_events] returns the empty list instead of raising. *)
Lemma find_events_zero_tol_not_rejected :
  0 <= 0 /\
  find_events sample_search (lambda (f_s uniform_lon 0)) (ecl_lon uniform_lon sun)
    0 0 400 24 0 = Ok [] /\
  ~ exists e,
      find_events sample_search (lambda (f_s uniform_lon 0)) (ecl_lon uniform_lon sun)
        0 0 400 24 0 = Raise e.
Proof.
  assert (E : find_events sample_search (lambda (f_s uniform_lon 0))
                (ecl_lon uniform_lon sun) 0 0 400 24 0 = Ok [])
    by (vm_compute; reflexivity).
  split; [apply Qle_refl | split; [exact E |]].
  intros [e He]. rewrite E in He. discriminate He.
Qed.

Lemma find_events_no_validation_witness :
  find_events sample_search (lambda (f_s uniform_lon 0)) (ecl_lon uniform_lon sun)
    0 0 400 24 (-1) = Ok [].
Proof.
  apply (proj2 (find_events_no_validation SearchError sample_search
                  (lambda (f_s uniform_lon 0)) (ecl_lon uniform_lon sun)
                  0 0 400 24 (-1)))
    with (times := [1 # 4096; 180; 1474561 # 4096]) (vals := [1; 0; 1]%Z).
  - discriminate.
  - vm_compute. reflexivity.
Defined.



(** ** Further facts about the angular difference *)



Lemma ang_diff_abs_le (a b : Q) : Qabs (ang_diff a b) <= 180.
Proof.
  destruct (ang_diff_range a b). apply Qabs_Qle_condition. split; lra.
Qed.












(** ** Further facts about the longitudes, the search and the main program *)

Section MoreProgramFacts.

Variable Exn : Type.
Variable raw_lon : Body -> Instant -> Q.
Variable find_discrete :
  Instant -> Instant -> SignFn -> result Exn (list Instant * list Z).
Variable from_datetime : Timestamp -> Instant.


Lemma find_events_ok fn_sign fn_val target t0 t1 step_h tol times vals :
  find_discrete t0 t1 (set_step_days fn_sign (step_h / 24)) = Ok (times, vals) ->
  find_events find_discrete fn_sign fn_val target t0 t1 step_h tol =
  Ok (filter (within_tol fn_val target tol) times).
Proof. intros H. unfold find_events. rewrite H. reflexivity. Qed.




(** A tolerance above 180 rejects nothing: all the candidates of the
    search come back, branch-cut flips included. *)
Theorem find_events_large_tol_keeps_all fn_sign fn_val target t0 t1 step_h tol times vals :
  find_discrete t0 t1 (set_step_days fn_sign (step_h / 24)) = Ok (times, vals) ->
  180 < tol ->
  find_events find_discrete fn_sign fn_val target t0 t1 step_h tol = Ok times.
Proof.
  intros Hs Htol. rewrite (find_events_ok _ _ _ _ _ _ _ _ _ Hs). f_equal.
  clear Hs. induction times as [| x l IH]; simpl; trivial.
  assert (W : within_tol fn_val target tol x = true).
  { apply Qltb_lt. eapply Qle_lt_trans; [apply ang_diff_abs_le | exact Htol]. }
  rewrite W, IH. reflexivity.
Qed.

(** The result holds only candidates of the search, no more of them than
    there were, and a larger tolerance never loses an instant that a
    smaller one returned. *)
Theorem find_events_monotone_in_tol fn_sign fn_val target t0 t1 step_h tol tol' times vals :
  find_discrete t0 t1 (set_step_days fn_sign (step_h / 24)) = Ok (times, vals) ->
  tol <= tol' ->
  exists out out',
    find_events find_discrete fn_sign fn_val target t0 t1 step_h tol = Ok out /\
    find_events find_discrete fn_sign fn_val target t0 t1 step_h tol' = Ok out' /\
    incl out out' /\ incl out' times /\
    (List.length out <= List.length out' <= List.length times)%nat /\
    out = filter (within_tol fn_val target tol) out'.
Proof.
  intros Hs Hle.
  rewrite !(find_events_ok _ _ _ _ _ _ _ _ _ Hs).
  do 2 eexists. split; [reflexivity | split; [reflexivity |]].
  assert (M : forall x, within_tol fn_val target tol x = true ->
                        within_tol fn_val target tol' x = true).
  { intros x. unfold within_tol. rewrite !Qltb_lt. intros H.
    eapply Qlt_le_trans; eauto. }
  assert (F : filter (within_tol fn_val target tol) times =
              filter (within_tol fn_val target tol)
                (filter (within_tol fn_val target tol') times)).
  { clear Hs. induction times as [| x l IH]; simpl; trivial.
    destruct (within_tol fn_val target tol x) eqn:E.
    - rewrite (M x E). simpl. rewrite E, IH. reflexivity.
    - destruct (within_tol fn_val target tol' x); simpl; rewrite ?E; exact IH. }
  split; [| split; [| split; [split |]]].
  - rewrite F. intros x Hx. apply filter_In in Hx. tauto.
  - intros x Hx. apply filter_In in Hx. tauto.
  - rewrite F. apply filter_length_le.
  - apply filter_length_le.
  - exact F.
Qed.

(** A candidate at which the value is diametrically opposite to the
    target, a flip of the sign at the branch cut, is never returned when
    the tolerance is at most 180. *)
Theorem find_events_drops_opposite fn_sign fn_val target t0 t1 step_h tol out t :
  tol <= 180 ->
  opposite (fn_val t) target ->
  find_events find_discrete fn_sign fn_val target t0 t1 step_h tol = Ok out ->
  ~ In t out.
Proof.
  intros Htol Hopp. unfold find_events.
  destruct (find_discrete _ _ _) as [[times vals] | e]; [| discriminate].
  intros [= <-] Hin. apply filter_In in Hin. destruct Hin as [_ W].
  unfold within_tol in W. apply Qltb_lt in W.
  rewrite (ang_diff_opposite _ _ Hopp) in W.
  change (Qabs (-180)) with 180 in W. lra.
Qed.

End MoreProgramFacts.

Section MainFacts.

Variable Exn : Type.
Variable raw_lon : Body -> Instant -> Q.
Variable find_discrete :
  Instant -> Instant -> SignFn -> result Exn (list Instant * list Z).
Variable from_datetime : Timestamp -> Instant.







End MainFacts.

(** ** The rendering of an angle *)

Lemma py_int_nonneg (x : Q) : 0 <= x -> py_int x = Qfloor x.
Proof.
  intros H. unfold py_int. apply Qltb_ge in H. rewrite H. reflexivity.
Qed.

Lemma py_int_neg (x : Q) : x < 0 -> py_int x = Qceiling x.
Proof.
  intros H. unfold py_int. apply Qltb_lt in H. rewrite H. reflexivity.
Qed.

(** Truncation commutes with the change of sign. *)
Lemma py_int_opp (x : Q) : py_int (- x) = (- py_int x)%Z.
Proof.
  assert (N : Qfloor (- - x) = Qfloor x) by (apply Qfloor_comp; lra).
  destruct (Qlt_le_dec x 0) as [Hneg | Hpos].
  - rewrite (py_int_neg x Hneg), py_int_nonneg by lra.
    unfold Qceiling. lia.
  - destruct (Qlt_le_dec 0 x) as [Hgt | Hle].
    + rewrite (py_int_nonneg x Hpos), py_int_neg by lra.
      unfold Qceiling. rewrite N. reflexivity.
    + assert (Z0 : x == 0) by lra.
      rewrite (py_int_nonneg x Hpos), py_int_nonneg by lra.
      rewrite (Qfloor_comp x 0 Z0), (Qfloor_comp (- x) 0) by lra.
      reflexivity.
Qed.

Lemma py_int_comp (x y : Q) : x == y -> py_int x = py_int y.
Proof.
  intros E. destruct (Qlt_le_dec x 0) as [Hneg | Hpos].
  - rewrite py_int_neg, py_int_neg by lra. unfold Qceiling.
    rewrite (Qfloor_comp (- x) (- y)) by lra. reflexivity.
  - rewrite py_int_nonneg, py_int_nonneg by lra. apply Qfloor_comp. exact E.
Qed.

Lemma round_half_even_comp (x y : Q) : x == y -> round_half_even x = round_half_even y.
Proof.
  intros E. unfold round_half_even.
  rewrite (Qfloor_comp x y E).
  assert (C : (x - inject_Z (Qfloor y) ?= 1 # 2) = (y - inject_Z (Qfloor y) ?= 1 # 2))
    by (apply Qcompare_comp; [rewrite E |]; reflexivity).
  rewrite C. reflexivity.
Qed.

Lemma dms_d_opp (deg : Q) : dms_d (- deg) = (- dms_d deg)%Z.
Proof. apply py_int_opp. Qed.

Lemma dms_m_opp (deg : Q) : dms_m (- deg) = (- dms_m deg)%Z.
Proof.
  unfold dms_m. rewrite dms_d_opp.
  rewrite <- (py_int_opp ((deg - inject_Z (dms_d deg)) * 60)).
  apply py_int_comp. rewrite inject_Z_opp. lra.
Qed.

Lemma dms_s_opp (deg : Q) : dms_s (- deg) == - dms_s deg.
Proof.
  unfold dms_s. rewrite dms_d_opp, dms_m_opp, !inject_Z_opp. field.
Qed.

Lemma dms_parts_bounds (deg : Q) :
  0 <= deg ->
  (0 <= dms_d deg)%Z /\
  (inject_Z (dms_d deg) <= deg /\ deg < inject_Z (dms_d deg) + 1) /\
  (0 <= dms_m deg <= 59)%Z /\
  (0 <= dms_s deg /\ dms_s deg < 60).
Proof.
  intros Hdeg. unfold dms_s, dms_m, dms_d.
  rewrite (py_int_nonneg deg Hdeg).
  pose proof (Qfloor_le deg) as Dl.
  pose proof (Qlt_floor deg) as Dh.
  rewrite inject_Z_plus in Dh. change (inject_Z 1) with 1 in Dh.
  assert (D0 : (0 <= Qfloor deg)%Z)
    by (change 0%Z with (Qfloor 0); apply Qfloor_resp_le; exact Hdeg).
  set (d := Qfloor deg) in *.
  assert (X0 : 0 <= (deg - inject_Z d) * 60) by lra.
  rewrite (py_int_nonneg _ X0).
  pose proof (Qfloor_le ((deg - inject_Z d) * 60)) as Ml.
  pose proof (Qlt_floor ((deg - inject_Z d) * 60)) as Mh.
  rewrite inject_Z_plus in Mh. change (inject_Z 1) with 1 in Mh.
  assert (M0 : (0 <= Qfloor ((deg - inject_Z d) * 60))%Z)
    by (change 0%Z with (Qfloor 0); apply Qfloor_resp_le; exact X0).
  assert (M59 : (Qfloor ((deg - inject_Z d) * 60) <= 59)%Z).
  { assert (L : inject_Z (Qfloor ((deg - inject_Z d) * 60)) < inject_Z 60)
      by (change (inject_Z 60) with 60; lra).
    rewrite <- Zlt_Qlt in L. lia. }
  set (m := Qfloor ((deg - inject_Z d) * 60)) in *.
  assert (S : (deg - inject_Z d - inject_Z m / 60) * 3600
              == ((deg - inject_Z d) * 60 - inject_Z m) * 60) by field.
  split; [exact D0 | split; [split; lra | split; [lia | split; lra]]].
Qed.



Lemma fixed1_comp (x y : Q) : x == y -> fixed1 x = fixed1 y.
Proof.
  intros E. unfold fixed1.
  rewrite (round_half_even_comp (x * 10) (y * 10)) by (rewrite E; reflexivity).
  reflexivity.
Qed.

(** A negative angle is rendered as a minus sign followed by the
    rendering of its absolute value. *)
Theorem dms_negative (deg : Q) :
  0 < deg -> dms (- deg) = ("-" ++ dms deg)%string.
Proof.
  intros Hpos. unfold dms. cbv zeta.
  assert (S1 : Qltb (- deg) 0 = true) by (apply Qltb_lt; lra).
  assert (S2 : Qltb deg 0 = false) by (apply Qltb_ge; lra).
  rewrite S1, S2, dms_d_opp, dms_m_opp, !Z.abs_opp.
  rewrite (fixed1_comp (Qabs (dms_s (- deg))) (Qabs (dms_s deg)))
    by (rewrite dms_s_opp; apply Qabs_opp).
  reflexivity.
Qed.

Lemma dms_negative_witness :
  dms (- (725 # 100)) = ("-" ++ dms (725 # 100))%string.
Proof.
  apply (dms_negative (725 # 100)). reflexivity.
Defined.

(** A test that holds for each of the first [N] naturals holds for every
    integer from 0 up to [N]. *)
Lemma below_table (p : Z -> bool) (N : nat) :
  forallb (fun k => p (Z.of_nat k)) (seq 0 N) = true ->
  forall n : Z, (0 <= n < Z.of_nat N)%Z -> p n = true.
Proof.
  intros T n Hn. rewrite forallb_forall in T.
  specialize (T (Z.to_nat n)). rewrite Z2Nat.id in T by lia.
  apply T. apply in_seq. lia.
Qed.

Lemma round_half_even_below_600 (x : Q) :
  0 <= x -> x < 600 ->
  (0 <= round_half_even x <= 600)%Z /\
  (round_half_even x = 600%Z <-> 1199 # 2 <= x).
Proof.
  intros Hlo Hhi. unfold round_half_even.
  pose proof (Qfloor_le x) as Fl.
  pose proof (Qlt_floor x) as Fh.
  rewrite inject_Z_plus in Fh. change (inject_Z 1) with 1 in Fh.
  assert (F0 : (0 <= Qfloor x)%Z)
    by (change 0%Z with (Qfloor 0); apply Qfloor_resp_le; exact Hlo).
  assert (F599 : (Qfloor x <= 599)%Z).
  { assert (L : inject_Z (Qfloor x) < inject_Z 600)
      by (change (inject_Z 600) with 600; lra).
    rewrite <- Zlt_Qlt in L. lia. }
  assert (Top : (Qfloor x = 599)%Z -> inject_Z (Qfloor x) == 599)
    by (intros ->; reflexivity).
  assert (Low : (Qfloor x <= 598)%Z -> inject_Z (Qfloor x) <= 598)
    by (intros L; change 598 with (inject_Z 598); rewrite <- Zle_Qle; exact L).
  destruct (Qcompare_spec (x - inject_Z (Qfloor x)) (1 # 2)) as [E | L | G].
  - destruct (Z.even (Qfloor x)) eqn:Ev.
    + split; [lia |]. split.
      * intros K. lia.
      * intros H. assert (K : Qfloor x = 599%Z).
        { destruct (Z.eq_dec (Qfloor x) 599) as [K | K]; trivial.
          assert (L : (Qfloor x <= 598)%Z) by lia. apply Low in L. lra. }
        rewrite K in Ev. vm_compute in Ev. discriminate Ev.
    + split; [lia |]. split.
      * intros K. assert (K' : Qfloor x = 599%Z) by lia. apply Top in K'. lra.
      * intros H. destruct (Z.eq_dec (Qfloor x) 599) as [K | K]; [lia |].
        assert (L : (Qfloor x <= 598)%Z) by lia. apply Low in L. lra.
  - split; [lia |]. split.
    + intros K. lia.
    + intros H. exfalso.
      destruct (Z.eq_dec (Qfloor x) 599) as [K | K].
      * apply Top in K. lra.
      * assert (L' : (Qfloor x <= 598)%Z) by lia. apply Low in L'. lra.
  - split; [lia |]. split.
    + intros K. assert (K' : Qfloor x = 599%Z) by lia. apply Top in K'. lra.
    + intros H. destruct (Z.eq_dec (Qfloor x) 599) as [K | K]; [lia |].
      assert (L : (Qfloor x <= 598)%Z) by lia. apply Low in L. lra.
Qed.



Lemma string_length_append (a b : string) :
  String.length (a ++ b) = (String.length a + String.length b)%nat.
Proof. induction a as [| c a IH]; simpl; [reflexivity | rewrite IH; reflexivity]. Qed.

(** For an angle from 0 up to 1000 the rendering always has the same
    width: three columns of degrees, two of minutes, four of seconds and
    the three marks, 17 bytes in UTF-8, with no sign. *)
Theorem dms_fixed_width (deg : Q) :
  0 <= deg -> deg < 1000 ->
  String.length (dms deg) = 17%nat /\
  exists sd sm ss : string,
    dms deg = (sd ++ "°" ++ sm ++ "′" ++ ss ++ "″")%string /\
    String.length sd = 3%nat /\ String.length sm = 2%nat /\ String.length ss = 4%nat.
Proof.
  intros Hlo Hhi.
  destruct (dms_parts_bounds deg Hlo) as (D0 & [Dl _] & M & [S0 S60]).
  assert (D999 : (dms_d deg < 1000)%Z).
  { assert (L : inject_Z (dms_d deg) < inject_Z 1000)
      by (change (inject_Z 1000) with 1000; lra).
    rewrite <- Zlt_Qlt in L. exact L. }
  assert (A : Qabs (dms_s deg) * 10 == dms_s deg * 10)
    by (rewrite Qabs_pos by exact S0; reflexivity).
  destruct (round_half_even_below_600 (dms_s deg * 10)) as [B _]; [lra | lra |].
  assert (Ld : String.length (rjust 3 " "%char (decimal (Z.abs (dms_d deg)))) = 3%nat).
  { rewrite Z.abs_eq by exact D0. apply Nat.eqb_eq.
    apply (below_table (fun n => String.length (rjust 3 " "%char (decimal n)) =? 3)%nat
             1000 eq_refl). lia. }
  assert (Lm : String.length (rjust 2 "0"%char (decimal (Z.abs (dms_m deg)))) = 2%nat).
  { rewrite Z.abs_eq by lia. apply Nat.eqb_eq.
    apply (below_table (fun n => String.length (rjust 2 "0"%char (decimal n)) =? 2)%nat
             60 eq_refl). lia. }
  assert (Ls : String.length (fixed1 (Qabs (dms_s deg))) = 4%nat).
  { unfold fixed1. rewrite (round_half_even_comp _ _ A). apply Nat.eqb_eq.
    apply (below_table (fun n => String.length (show_tenths n) =? 4)%nat 601 eq_refl).
    lia. }
  assert (Sg : Qltb deg 0 = false) by (apply Qltb_ge; exact Hlo).
  assert (E : dms deg =
              (rjust 3 " "%char (decimal (Z.abs (dms_d deg))) ++ "°"
                 ++ rjust 2 "0"%char (decimal (Z.abs (dms_m deg))) ++ "′"
                 ++ fixed1 (Qabs (dms_s deg)) ++ "″")%string)
    by (unfold dms; cbv zeta; rewrite Sg; reflexivity).
  split.
  - rewrite E, !string_length_append, Ld, Lm, Ls. reflexivity.
  - eexists _, _, _. split; [exact E | auto].
Qed.

Lemma dms_fixed_width_witness :
  String.length (dms (123456 # 1000)) = 17%nat /\
  exists sd sm ss : string,
    dms (123456 # 1000) = (sd ++ "°" ++ sm ++ "′" ++ ss ++ "″")%string /\
    String.length sd = 3%nat /\ String.length sm = 2%nat /\ String.length ss = 4%nat.
Proof.
  apply (dms_fixed_width (123456 # 1000)); [discriminate | reflexivity].
Defined.

(** ** The further facts on the run of the sun over 400 days *)


Lemma find_events_large_tol_keeps_all_witness :
  find_events sample_search (lambda (f_s uniform_lon 0)) (ecl_lon uniform_lon sun)
    0 0 400 24 181 = Ok [1 # 4096; 180; 1474561 # 4096].
Proof.
  apply (find_events_large_tol_keeps_all SearchError sample_search
           (lambda (f_s uniform_lon 0)) (ecl_lon uniform_lon sun)
           0 0 400 24 181 [1 # 4096; 180; 1474561 # 4096] [1; 0; 1]%Z).
  - vm_compute. reflexivity.
  - reflexivity.
Defined.

Lemma find_events_monotone_in_tol_witness :
  exists out out',
    find_events sample_search (lambda (f_s uniform_lon 0)) (ecl_lon uniform_lon sun)
      0 0 400 24 (1 # 100000) = Ok out /\
    find_events sample_search (lambda (f_s uniform_lon 0)) (ecl_lon uniform_lon sun)
      0 0 400 24 (1 # 100) = Ok out' /\
    incl out out' /\ incl out' [1 # 4096; 180; 1474561 # 4096] /\
    (List.length out <= List.length out'
     <= List.length [1 # 4096; 180; 1474561 # 4096]%Q)%nat /\
    out = filter (within_tol (ecl_lon uniform_lon sun) 0 (1 # 100000)) out'.
Proof.
  apply (find_events_monotone_in_tol SearchError sample_search
           (lambda (f_s uniform_lon 0)) (ecl_lon uniform_lon sun)
           0 0 400 24 (1 # 100000) (1 # 100)
           [1 # 4096; 180; 1474561 # 4096] [1; 0; 1]%Z).
  - vm_compute. reflexivity.
  - discriminate.
Defined.

Lemma find_events_drops_opposite_witness :
  ~ In 180 [1 # 4096; 1474561 # 4096].
Proof.
  apply (find_events_drops_opposite SearchError sample_search
           (lambda (f_s uniform_lon 0)) (ecl_lon uniform_lon sun)
           0 0 400 24 (1 # 100) [1 # 4096; 1474561 # 4096] 180).
  - discriminate.
  - exists 0%Z. reflexivity.
  - vm_compute. reflexivity.
Defined.

